(** * KYCWall: the payment gate of src/components/KYCWall/BaseKYCWall.js

    A shallow embedding of the [KYCWall] function component: its hooks
    ([useState], [useRef]), its mount effect, the press handler
    [continueAction], the menu callbacks and the resize listener, together
    with the calls it makes to its collaborators (logging, navigation, the
    success callback), recorded in order. A handler runs to completion
    against the current values of the hooks, and a state setter takes effect
    at once. *)

From Stdlib Require Import ZArith String Bool Lia PrimFloat.
From stdpp Require Import gmap strings list.

Local Open Scope Z_scope.

(** ** JavaScript values

    Props such as [userWallet.tierName] or the item handed to
    [handleItemSelected] are untyped in the source; the handlers only test
    them for truthiness and compare them with [===]. A number among these
    values is an integer here, so there is no NaN. *)

Inductive JsVal : Type :=
  | JsUndefined
  | JsNull
  | JsBool (b : bool)
  | JsNum (n : Z)
  | JsStr (s : string)
  | JsObj (handle : nat).

#[global] Instance JsVal_eq_dec : EqDecision JsVal.
Proof. solve_decision. Defined.

(** [ToBoolean] of the language specification. *)
Definition truthy (v : JsVal) : bool :=
  match v with
  | JsUndefined | JsNull => false
  | JsBool b => b
  | JsNum n => negb (n =? 0)
  | JsStr s => negb (String.eqb s "")
  | JsObj _ => true
  end.

(** [a === b]: same type and same value (objects by identity). *)
Definition strict_eq (a b : JsVal) : bool := bool_decide (a = b).

(** [a && b] yields [a] when [a] is falsy and [b] otherwise. *)
Definition js_and (a b : JsVal) : JsVal := if truthy a then b else a.

(** ** Geometry

    Coordinates are JavaScript numbers: binary64 floating-point values,
    added and subtracted with rounding to nearest. *)

Record DOMRect : Type := mkDOMRect {
  top : float;
  left : float;
  width : float;
  height : float
}.

Record AnchorPosition : Type := mkAnchor {
  anchorPositionVertical : float;
  anchorPositionHorizontal : float
}.

Definition POPOVER_MENU_ANCHOR_POSITION_VERTICAL_OFFSET : float := 2%float.
Definition POPOVER_MENU_ANCHOR_POSITION_HORIZONTAL_OFFSET : float := 20%float.

(** The entries of the application's [CONST] table that the component reads.
    The table itself is not part of the component, so its values are taken
    as a parameter. *)
Record CONST_t : Type := mkCONST {
  MODAL_POPOVER_MENU_PADDING : float;
  BANK_ACCOUNT_STATE_OPEN : string;
  WALLET_TIER_NAME_GOLD : string;
  PAYMENT_METHODS_BANK_ACCOUNT : string;
  PAYMENT_METHODS_DEBIT_CARD : string
}.

(** [getAnchorPosition], lines 51-66; [popoverPlacement] is the prop the
    callback closes over. *)
Definition getAnchorPosition (CONST : CONST_t) (popoverPlacement : string)
    (domRect : DOMRect) : AnchorPosition :=
  if String.eqb popoverPlacement "bottom" then
    {| anchorPositionVertical :=
         (top domRect
          + (height domRect - POPOVER_MENU_ANCHOR_POSITION_VERTICAL_OFFSET))%float;
       anchorPositionHorizontal :=
         (left domRect + POPOVER_MENU_ANCHOR_POSITION_HORIZONTAL_OFFSET)%float |}
  else
    {| anchorPositionVertical :=
         (top domRect - MODAL_POPOVER_MENU_PADDING CONST)%float;
       anchorPositionHorizontal := left domRect |}.

(** ** The world the component runs in *)

(** A DOM element, known only by its handle. *)
Definition Element : Type := nat.

(** The calls the component makes to its collaborators, in program order. *)
Inductive Call : Type :=
  | CallIsExpenseReport
  | CallHasExpensifyPaymentMethod
  | CallGetClickedTargetLocation (el : Element)
  | CallLogInfo (message : string)
  | CallNavigate (route : string)
  | CallOnSuccessfulKYC (iouPaymentType : string)
  | CallSetKYCWallSourceChatReportID (chatReportID : string)
  | CallAddEventListener (subscription : nat)
  | CallRemove (subscription : nat).

#[global] Instance Call_eq_dec : EqDecision Call.
Proof. solve_decision. Defined.

Record World : Type := mkWorld {
  (* hooks of the component instance *)
  shouldShowAddPaymentMenu : bool;
  anchorPosition : AnchorPosition;
  transferBalanceButtonRef : option Element;
  (* process-wide state *)
  kycWallRef : JsVal;
  kycWallSourceChatReportID : option string;
  dimensionsListeners : list nat;
  (* the page: where each element currently is *)
  layout : Element → DOMRect;
  (* what has been called so far *)
  trace : list Call
}.

(** Outcome of running a handler: it returns, or a [TypeError] escapes. *)
Inductive Outcome (A : Type) : Type :=
  | Returned (a : A) (w : World)
  | Thrown (error : string) (w : World).
Arguments Returned {A} a w.
Arguments Thrown {A} error w.

Definition M (A : Type) : Type := World → Outcome A.

#[global] Instance M_ret : MRet M := λ A a w, Returned a w.
#[global] Instance M_bind : MBind M := λ A B f m w,
  match m w with
  | Returned a w' => f a w'
  | Thrown e w' => Thrown e w'
  end.
#[global] Instance M_fmap : FMap M := λ A B f m w,
  match m w with
  | Returned a w' => Returned (f a) w'
  | Thrown e w' => Thrown e w'
  end.

Definition throw {A : Type} (error : string) : M A := λ w, Thrown error w.
Definition gets {A : Type} (f : World → A) : M A := λ w, Returned (f w) w.
Definition modify (f : World → World) : M unit := λ w, Returned () (f w).

(** [a && b] and [a || b] on conditions, evaluating [b] only when needed. *)
Definition and_then (a b : M bool) : M bool :=
  x ← a; if x : bool then b else mret false.
Definition or_else (a b : M bool) : M bool :=
  x ← a; if x : bool then mret true else b.

Definition setShouldShowAddPaymentMenu (b : bool) : M unit :=
  modify (λ w, mkWorld b (anchorPosition w) (transferBalanceButtonRef w)
                 (kycWallRef w) (kycWallSourceChatReportID w)
                 (dimensionsListeners w) (layout w) (trace w)).

Definition setAnchorPosition (a : AnchorPosition) : M unit :=
  modify (λ w, mkWorld (shouldShowAddPaymentMenu w) a (transferBalanceButtonRef w)
                 (kycWallRef w) (kycWallSourceChatReportID w)
                 (dimensionsListeners w) (layout w) (trace w)).

Definition set_transferBalanceButtonRef (current : option Element) : M unit :=
  modify (λ w, mkWorld (shouldShowAddPaymentMenu w) (anchorPosition w) current
                 (kycWallRef w) (kycWallSourceChatReportID w)
                 (dimensionsListeners w) (layout w) (trace w)).

Definition set_kycWallRef (current : JsVal) : M unit :=
  modify (λ w, mkWorld (shouldShowAddPaymentMenu w) (anchorPosition w)
                 (transferBalanceButtonRef w) current (kycWallSourceChatReportID w)
                 (dimensionsListeners w) (layout w) (trace w)).

Definition set_kycWallSourceChatReportID (id : option string) : M unit :=
  modify (λ w, mkWorld (shouldShowAddPaymentMenu w) (anchorPosition w)
                 (transferBalanceButtonRef w) (kycWallRef w) id
                 (dimensionsListeners w) (layout w) (trace w)).

Definition set_dimensionsListeners (l : list nat) : M unit :=
  modify (λ w, mkWorld (shouldShowAddPaymentMenu w) (anchorPosition w)
                 (transferBalanceButtonRef w) (kycWallRef w)
                 (kycWallSourceChatReportID w) l (layout w) (trace w)).

Definition set_layout (f : Element → DOMRect) : M unit :=
  modify (λ w, mkWorld (shouldShowAddPaymentMenu w) (anchorPosition w)
                 (transferBalanceButtonRef w) (kycWallRef w)
                 (kycWallSourceChatReportID w) (dimensionsListeners w) f (trace w)).

Definition call (c : Call) : M unit :=
  modify (λ w, mkWorld (shouldShowAddPaymentMenu w) (anchorPosition w)
                 (transferBalanceButtonRef w) (kycWallRef w)
                 (kycWallSourceChatReportID w) (dimensionsListeners w) (layout w)
                 (trace w ++ [c])).

(** ** Props *)

Record ACHData : Type := mkACHData { state : JsVal }.
Record ReimbursementAccount : Type := mkReimbursementAccount {
  achData : option ACHData
}.
Record UserWallet : Type := mkUserWallet { tierName : JsVal }.

Record NativeEvent : Type := mkNativeEvent { target : Element }.
Record PressEvent : Type := mkPressEvent { nativeEvent : NativeEvent }.

(** The props the component destructures (lines 23-37). A prop that may be
    missing is an [option]; [None] stands for [undefined] or [null]. The
    [onSuccessfulKYC] callback and [children] are not data: the first is
    observed through [CallOnSuccessfulKYC]. *)
Record Props {Report Fund BankAccount : Type} : Type := mkProps {
  shouldListenForResize : bool;
  chatReportID : string;
  popoverPlacement : string;
  iouReport : option Report;
  fundList : option (gmap string Fund);
  reimbursementAccount : option ReimbursementAccount;
  bankAccountList : option (gmap string BankAccount);
  userWallet : option UserWallet;
  enablePaymentsRoute : string;
  addBankAccountRoute : string;
  addDebitCardRoute : string
}.
Arguments Props : clear implicits.
Arguments mkProps {Report Fund BankAccount}.

(** [lodashGet(reimbursementAccount, 'achData.state', '')]: the value at the
    path, or the default when the path resolves to [undefined]. *)
Definition lodashGet_achData_state (reimbursementAccount : option ReimbursementAccount)
    : JsVal :=
  match reimbursementAccount with
  | Some {| achData := Some {| state := JsUndefined |} |} => JsStr ""
  | Some {| achData := Some {| state := v |} |} => v
  | _ => JsStr ""
  end.

(** ** The component *)

Section KYCWall.

Context {Report Fund BankAccount : Type}.

(** Collaborators that live in other modules of the application. *)
Variable CONST : CONST_t.
Variable isExpenseReport : option Report → bool.
Variable hasExpensifyPaymentMethod :
  gmap string Fund → option (gmap string BankAccount) → bool.

(** What [this] evaluates to in the body of the component. *)
Variable this : JsVal.

Section Render.

Variable props : Props Report Fund BankAccount.

Definition ReportUtils_isExpenseReport (report : option Report) : M bool :=
  call CallIsExpenseReport;; mret (isExpenseReport report).

Definition PaymentUtils_hasExpensifyPaymentMethod
    (cards : gmap string Fund) (accounts : option (gmap string BankAccount))
    : M bool :=
  call CallHasExpensifyPaymentMethod;; mret (hasExpensifyPaymentMethod cards accounts).

(** [getClickedTargetLocation(target)]: the bounding rectangle the element
    has at the time of the call. *)
Definition getClickedTargetLocation (el : Element) : M DOMRect :=
  call (CallGetClickedTargetLocation el);; gets (λ w, layout w el).

Definition Log_info (message : string) : M unit := call (CallLogInfo message).
Definition Navigation_navigate (route : string) : M unit := call (CallNavigate route).
Definition onSuccessfulKYC (iouPaymentType : string) : M unit :=
  call (CallOnSuccessfulKYC iouPaymentType).

(** Modelled from the spec: [Wallet.setKYCWallSourceChatReportID] belongs to
    libs/actions/Wallet, which is not among the sources; it publishes the
    originating chat/report identifier to process-wide shared state. *)
Definition Wallet_setKYCWallSourceChatReportID (id : string) : M unit :=
  call (CallSetKYCWallSourceChatReportID id);;
  set_kycWallSourceChatReportID (Some id).

(** [Dimensions.addEventListener('change', setMenuPosition)]: the only
    listeners tracked are this wall's, each known by its subscription. *)
Definition Dimensions_addEventListener : M nat :=
  listeners ← gets dimensionsListeners;
  let subscription := S (max_list listeners) in
  call (CallAddEventListener subscription);;
  set_dimensionsListeners (listeners ++ [subscription]);;
  mret subscription.

Definition subscription_remove (subscription : nat) : M unit :=
  call (CallRemove subscription);;
  listeners ← gets dimensionsListeners;
  set_dimensionsListeners (filter (λ s, s ≠ subscription) listeners).

(** Initial values of the hooks (lines 38-45). *)
Definition initialHooks (w : World) : Prop :=
  shouldShowAddPaymentMenu w = false
  ∧ anchorPosition w = mkAnchor 0 0
  ∧ transferBalanceButtonRef w = None.

(** Lines 73-78. *)
Definition setPositionAddPaymentMenu (position : AnchorPosition) : M unit :=
  setAnchorPosition
    {| anchorPositionVertical := anchorPositionVertical position;
       anchorPositionHorizontal := anchorPositionHorizontal position |}.

(** Lines 80-88. *)
Definition setMenuPosition : M unit :=
  current ← gets transferBalanceButtonRef;
  match current with
  | None => mret ()
  | Some el =>
      buttonPosition ← getClickedTargetLocation el;
      let position := getAnchorPosition CONST (popoverPlacement props) buttonPosition in
      setPositionAddPaymentMenu position
  end.

(** The effect of lines 90-100; it returns [dimensionsSubscription], the
    variable its cleanup closes over. *)
Definition useEffect_setup : M (option nat) :=
  set_kycWallRef this;;
  dimensionsSubscription ←
    (if shouldListenForResize props
     then Some <$> Dimensions_addEventListener
     else mret None);
  Wallet_setKYCWallSourceChatReportID (chatReportID props);;
  mret dimensionsSubscription.

(** The cleanup of lines 101-107. *)
Definition useEffect_cleanup (dimensionsSubscription : option nat) : M unit :=
  match shouldListenForResize props, dimensionsSubscription with
  | true, Some subscription => subscription_remove subscription
  | _, _ => mret ()
  end;;
  set_kycWallRef JsNull.

(** [continueAction], lines 118-160. Each [return] of the source ends a
    branch here; [needsUpgrade] is the test of lines 146-150 taken as one
    condition. Reading [userWallet.tierName] off a missing wallet throws. *)
Definition continueAction (event : PressEvent) (iouPaymentType : string) : M unit :=
  shown ← gets shouldShowAddPaymentMenu;
  if shown : bool then setShouldShowAddPaymentMenu false
  else
    set_transferBalanceButtonRef (Some (target (nativeEvent event)));;
    isExpense ← ReportUtils_isExpenseReport (iouReport props);
    let paymentCardList := default ∅ (fundList props) in
    blocked ←
      or_else
        (and_then (mret isExpense)
           (mret (negb (strict_eq
                          (lodashGet_achData_state (reimbursementAccount props))
                          (JsStr (BANK_ACCOUNT_STATE_OPEN CONST))))))
        (and_then (mret (negb isExpense))
           (negb <$> PaymentUtils_hasExpensifyPaymentMethod
                       paymentCardList (bankAccountList props)));
    if blocked : bool then
      Log_info "[KYC Wallet] User does not have valid payment method";;
      clickedElementLocation ← getClickedTargetLocation (target (nativeEvent event));
      let position :=
        getAnchorPosition CONST (popoverPlacement props) clickedElementLocation in
      setPositionAddPaymentMenu position;;
      setShouldShowAddPaymentMenu true
    else
      needsUpgrade ←
        (if negb isExpense then
           match userWallet props with
           | None => throw "TypeError"
           | Some wallet =>
               let hasGoldWallet :=
                 js_and (tierName wallet)
                   (JsBool (strict_eq (tierName wallet)
                              (JsStr (WALLET_TIER_NAME_GOLD CONST)))) in
               mret (negb (truthy hasGoldWallet))
           end
         else mret false);
      if needsUpgrade : bool then
        Log_info "[KYC Wallet] User does not have gold wallet";;
        Navigation_navigate (enablePaymentsRoute props)
      else
        Log_info "[KYC Wallet] User has valid payment method and passed KYC checks or did not need them";;
        onSuccessfulKYC iouPaymentType.

(** [handleItemSelected], lines 162-170. *)
Definition handleItemSelected (item : JsVal) : M unit :=
  setShouldShowAddPaymentMenu false;;
  if strict_eq item (JsStr (PAYMENT_METHODS_BANK_ACCOUNT CONST)) then
    Navigation_navigate (addBankAccountRoute props)
  else if strict_eq item (JsStr (PAYMENT_METHODS_DEBIT_CARD CONST)) then
    Navigation_navigate (addDebitCardRoute props)
  else mret ().

(** The [onClose] prop handed to the menu, line 176. *)
Definition onClose : M unit := setShouldShowAddPaymentMenu false.

(** A change of the window dimensions: the page is laid out anew, then
    every registered listener runs. *)
Definition Dimensions_change (newLayout : Element → DOMRect) : M unit :=
  set_layout newLayout;;
  listeners ← gets dimensionsListeners;
  foldr (λ _ rest, setMenuPosition;; rest) (mret ()) listeners.

End Render.

(** ** The wall as a transition system

    What can happen to a mounted wall: the gated button is pressed, the
    menu reports a selection or asks to be closed, the window changes. *)
Inductive Action : Type :=
  | Press (event : PressEvent) (iouPaymentType : string)
  | ItemSelected (item : JsVal)
  | Close
  | DimensionsChange (newLayout : Element → DOMRect).

Definition handle (props : Props Report Fund BankAccount) (a : Action) : M unit :=
  match a with
  | Press event iouPaymentType => continueAction props event iouPaymentType
  | ItemSelected item => handleItemSelected props item
  | Close => onClose
  | DimensionsChange newLayout => Dimensions_change props newLayout
  end.

(** Worlds a wall can be in between mount and unmount. The account data in
    the props may differ from one render to the next; the placement and
    the resize switch are those the wall was mounted with. *)
Inductive reachable (placement : string) (listen : bool) : World → Prop :=
  | reachable_mount props w0 subscription w :
      initialHooks w0 →
      dimensionsListeners w0 = [] →
      popoverPlacement props = placement →
      shouldListenForResize props = listen →
      useEffect_setup props w0 = Returned subscription w →
      reachable placement listen w
  | reachable_step props a w w' :
      reachable placement listen w →
      popoverPlacement props = placement →
      handle props a w = Returned () w' →
      reachable placement listen w'.

(** The menu, when shown, sits where [getAnchorPosition] puts it for the
    place the last pressed element has on the page now. *)
Definition anchored (placement : string) (w : World) : Prop :=
  shouldShowAddPaymentMenu w = true →
  ∃ el, transferBalanceButtonRef w = Some el
        ∧ anchorPosition w = getAnchorPosition CONST placement (layout w el).

End KYCWall.

(** ** The payable-method predicate *)

(** Modelled from the spec: the union of the fund list and the bank account
    list that the payable-method predicate looks at; a missing list
    contributes no instrument. *)
Definition instruments {Fund BankAccount : Type}
    (cards : gmap string Fund) (accounts : option (gmap string BankAccount))
    : list (Fund + BankAccount) :=
  (inl <$> (map_to_list cards).*2) ++ (inr <$> (map_to_list (default ∅ accounts)).*2).

(** Modelled from the spec: [PaymentUtils.hasExpensifyPaymentMethod] belongs
    to libs/PaymentUtils, which is not among the sources. The user has a
    payable method when the union of the two lists contains at least one
    usable instrument, usability being decided elsewhere. *)
Definition hasPayableMethod {Fund BankAccount : Type}
    (usable : Fund + BankAccount → bool)
    (cards : gmap string Fund) (accounts : option (gmap string BankAccount)) : bool :=
  existsb usable (instruments cards accounts).

(** The props with every missing list replaced by an empty one. *)
Definition withEmptyLists {Report Fund BankAccount : Type}
    (p : Props Report Fund BankAccount) : Props Report Fund BankAccount :=
  mkProps (shouldListenForResize p) (chatReportID p) (popoverPlacement p)
    (iouReport p) (Some (default ∅ (fundList p))) (reimbursementAccount p)
    (Some (default ∅ (bankAccountList p))) (userWallet p)
    (enablePaymentsRoute p) (addBankAccountRoute p) (addDebitCardRoute p).

(** ** Sample data *)

Module Sample.

Definition CONST : CONST_t := mkCONST 8 "OPEN" "GOLD" "bankAccount" "debitCard".

(** A report is reduced to whether it is an expense report, an instrument
    to whether it is usable. *)
Definition isExpenseReport (report : option bool) : bool := default false report.
Definition usable (i : bool + bool) : bool := match i with inl b | inr b => b end.
Definition hasPM := hasPayableMethod usable.

Definition this : JsVal := JsUndefined.

Definition rect : DOMRect := mkDOMRect 100 50 80 20.
Definition rectAfterResize : DOMRect := mkDOMRect 300 10 80 20.
Definition page : Element → DOMRect := λ _, rect.
Definition pageAfterResize : Element → DOMRect := λ _, rectAfterResize.

Definition world0 : World :=
  mkWorld false (mkAnchor 0 0) None JsNull None [] page [].

Definition press : PressEvent := mkPressEvent (mkNativeEvent 7%nat).

Definition props (listen : bool) (placement : string) (expense : option bool)
    (cards : option (gmap string bool)) (accounts : option (gmap string bool))
    (wallet : option UserWallet) : Props bool bool bool :=
  mkProps listen "42" placement expense cards None accounts wallet
    "enable-payments" "add-bank-account" "add-debit-card".

Definition world_of {A : Type} (o : Outcome A) : World :=
  match o with Returned _ w | Thrown _ w => w end.

(** The wall mounted, with and without the resize listener. *)
Definition mounted (listen : bool) : World :=
  world_of (useEffect_setup this (props listen "bottom" None None None None) world0).

(** Pressed with nothing on file: the menu is open. *)
Definition opened (listen : bool) : World :=
  world_of (continueAction CONST isExpenseReport hasPM
              (props listen "bottom" None None None None) press "elsewhere"
              (mounted listen)).

(** The window then changes. *)
Definition resized (listen : bool) : World :=
  world_of (Dimensions_change CONST (props listen "bottom" None None None None)
              pageAfterResize (opened listen)).

(** An expense report without a reimbursement account. *)
Definition expenseProps : Props bool bool bool :=
  props true "bottom" (Some true) None None None.

(** A usable card on file, with a wallet of the given tier. *)
Definition cardProps (tier : JsVal) : Props bool bool bool :=
  props true "bottom" None (Some {[ "card" := true ]}) None
    (Some (mkUserWallet tier)).

(** No fund list at all, a usable bank account and a GOLD wallet. *)
Definition bankOnlyProps : Props bool bool bool :=
  props true "bottom" None None (Some {[ "account" := true ]})
    (Some (mkUserWallet (JsStr "GOLD"))).

End Sample.

(** ** Reading outcomes and traces *)

(** The world a handler leaves behind, whether it returned or threw. *)
Definition final {A : Type} (o : Outcome A) : World :=
  match o with Returned _ w | Thrown _ w => w end.

(** The routes navigated to among a list of calls, in order. *)
Definition navigations (calls : list Call) : list string :=
  omap (λ c, match c with CallNavigate route => Some route | _ => None end) calls.

(** The payment types the success callback was called with, in order. *)
Definition continuations (calls : list Call) : list string :=
  omap (λ c, match c with CallOnSuccessfulKYC t => Some t | _ => None end) calls.

(** ** More sample data *)

Module Scenario.

Definition openAccount : ReimbursementAccount :=
  mkReimbursementAccount (Some (mkACHData (JsStr "OPEN"))).

(** An expense report paid from an open reimbursement account; no wallet
    and no lists are passed. *)
Definition openExpenseProps : Props bool bool bool :=
  mkProps true "42" "bottom" (Some true) None (Some openAccount) None None
    "enable-payments" "add-bank-account" "add-debit-card".

(** An expense report whose reimbursement account has no [achData]. *)
Definition bareExpenseProps : Props bool bool bool :=
  mkProps true "42" "bottom" (Some true) None
    (Some (mkReimbursementAccount None)) None None
    "enable-payments" "add-bank-account" "add-debit-card".

(** A usable card on file and no wallet object. *)
Definition noWalletProps : Props bool bool bool :=
  Sample.props true "bottom" None (Some {[ "card" := true ]}) None None.

(** A second wall, on another chat. *)
Definition otherWallProps : Props bool bool bool :=
  mkProps true "43" "top" None None None None None
    "enable-payments" "add-bank-account" "add-debit-card".

Definition otherPress : PressEvent := mkPressEvent (mkNativeEvent 9%nat).

(** An element at top 0.2 with height 2.3, each the nearest double. *)
Definition fractionalRect : DOMRect :=
  mkDOMRect 0x1.999999999999ap-3 0 0 0x1.2666666666666p+1.

End Scenario.

(** * Properties *)

(** ** Sample runs *)

Example getAnchorPosition_bottom_sample :
  getAnchorPosition Sample.CONST "bottom" Sample.rect = mkAnchor 118 70.
Proof. reflexivity. Qed.

Example mounted_sample :
  kycWallRef (Sample.mounted true) = JsUndefined
  ∧ kycWallSourceChatReportID (Sample.mounted true) = Some "42"
  ∧ dimensionsListeners (Sample.mounted true) = [1%nat]
  ∧ dimensionsListeners (Sample.mounted false) = [].
Proof. repeat split; reflexivity. Qed.

Example opened_sample :
  shouldShowAddPaymentMenu (Sample.opened true) = true
  ∧ anchorPosition (Sample.opened true) = mkAnchor 118 70
  ∧ transferBalanceButtonRef (Sample.opened true) = Some 7%nat.
Proof. repeat split; vm_compute; reflexivity. Qed.

Example resized_sample :
  anchorPosition (Sample.resized true) = mkAnchor 318 30
  ∧ anchorPosition (Sample.resized false) = mkAnchor 118 70.
Proof. split; vm_compute; reflexivity. Qed.

(** ** Running the handlers symbolically *)

Ltac run_handlers :=
  unfold continueAction, handleItemSelected, onClose, setMenuPosition,
    useEffect_setup, useEffect_cleanup, Dimensions_addEventListener,
    subscription_remove, Wallet_setKYCWallSourceChatReportID,
    ReportUtils_isExpenseReport, PaymentUtils_hasExpensifyPaymentMethod,
    getClickedTargetLocation, setPositionAddPaymentMenu, Log_info,
    Navigation_navigate, onSuccessfulKYC, and_then, or_else,
    setShouldShowAddPaymentMenu, setAnchorPosition, set_transferBalanceButtonRef,
    set_kycWallRef, set_kycWallSourceChatReportID, set_dimensionsListeners,
    set_layout, call, gets, modify, throw,
    mbind, M_bind, mret, M_ret, fmap, M_fmap;
  cbn [shouldShowAddPaymentMenu anchorPosition transferBalanceButtonRef kycWallRef
       kycWallSourceChatReportID dimensionsListeners layout trace negb].

Lemma strict_eq_true (a b : JsVal) : strict_eq a b = true ↔ a = b.
Proof. unfold strict_eq. apply bool_decide_eq_true. Qed.

Lemma strict_eq_false (a b : JsVal) : strict_eq a b = false ↔ a ≠ b.
Proof. unfold strict_eq. apply bool_decide_eq_false. Qed.

Lemma strict_eq_refl (a : JsVal) : strict_eq a a = true.
Proof. by apply strict_eq_true. Qed.

Lemma truthy_JsStr (s : string) : s ≠ "" → truthy (JsStr s) = true.
Proof.
  intros Hs. cbn. destruct (String.eqb_spec s ""); [contradiction | reflexivity].
Qed.

Lemma anchor_eta (a : AnchorPosition) :
  {| anchorPositionVertical := anchorPositionVertical a;
     anchorPositionHorizontal := anchorPositionHorizontal a |} = a.
Proof. by destruct a. Qed.

Section Properties.

Context {Report Fund BankAccount : Type}.
Variable CONST : CONST_t.
Variable isExpenseReport : option Report → bool.
Variable hasExpensifyPaymentMethod :
  gmap string Fund → option (gmap string BankAccount) → bool.

Abbreviation continueAction := (continueAction CONST isExpenseReport hasExpensifyPaymentMethod).
Abbreviation Props := (Props Report Fund BankAccount).

(** C4. A press while the menu is shown only hides the menu: the handler
    returns at once, having called nothing (no eligibility check, no
    navigation, no continuation), whatever the event, the payment type and
    the account data. *)
Theorem continueAction_toggles_open_menu (props : Props) (event : PressEvent)
    (iouPaymentType : string) (w : World) :
  shouldShowAddPaymentMenu w = true →
  ∃ w', continueAction props event iouPaymentType w = Returned () w'
        ∧ shouldShowAddPaymentMenu w' = false
        ∧ trace w' = trace w
        ∧ anchorPosition w' = anchorPosition w
        ∧ transferBalanceButtonRef w' = transferBalanceButtonRef w.
Proof.
  intros Hshown. run_handlers. rewrite Hshown.
  eexists. split; [reflexivity |]. by cbn.
Qed.

Abbreviation handleItemSelected := (handleItemSelected CONST).

(** The gate of lines 131-134, as a condition on the props. *)
Lemma continueAction_blocked (props : Props) (event : PressEvent)
    (iouPaymentType : string) (w : World) (calls : list Call) :
  shouldShowAddPaymentMenu w = false →
  (isExpenseReport (iouReport props) = true
   ∧ lodashGet_achData_state (reimbursementAccount props)
       ≠ JsStr (BANK_ACCOUNT_STATE_OPEN CONST)
   ∧ calls = [CallIsExpenseReport])
  ∨ (isExpenseReport (iouReport props) = false
     ∧ hasExpensifyPaymentMethod (default ∅ (fundList props)) (bankAccountList props)
       = false
     ∧ calls = [CallIsExpenseReport; CallHasExpensifyPaymentMethod]) →
  ∃ w', continueAction props event iouPaymentType w = Returned () w'
        ∧ shouldShowAddPaymentMenu w' = true
        ∧ transferBalanceButtonRef w' = Some (target (nativeEvent event))
        ∧ anchorPosition w'
          = getAnchorPosition CONST (popoverPlacement props)
              (layout w (target (nativeEvent event)))
        ∧ layout w' = layout w
        ∧ trace w'
          = trace w ++ calls
              ++ [CallLogInfo "[KYC Wallet] User does not have valid payment method";
                  CallGetClickedTargetLocation (target (nativeEvent event))].
Proof.
  intros Hidle Hgate. run_handlers. rewrite Hidle.
  destruct Hgate as [(Hexp & Hstate & ->) | (Hexp & Hnone & ->)]; rewrite Hexp; cbn.
  - apply strict_eq_false in Hstate. rewrite Hstate. cbn.
    eexists. split; [reflexivity |]. cbn.
    repeat split; try reflexivity; [apply anchor_eta | by rewrite <- !app_assoc].
  - rewrite Hnone. cbn.
    eexists. split; [reflexivity |]. cbn.
    repeat split; try reflexivity; [apply anchor_eta | by rewrite <- !app_assoc].
Qed.

(** The wallet check of lines 146-159, reached with a payment method on
    file outside an expense report. *)
Lemma continueAction_wallet_check (props : Props) (event : PressEvent)
    (iouPaymentType : string) (w : World) (wallet : UserWallet) :
  shouldShowAddPaymentMenu w = false →
  isExpenseReport (iouReport props) = false →
  hasExpensifyPaymentMethod (default ∅ (fundList props)) (bankAccountList props) = true →
  userWallet props = Some wallet →
  ∃ w', continueAction props event iouPaymentType w = Returned () w'
        ∧ shouldShowAddPaymentMenu w' = false
        ∧ anchorPosition w' = anchorPosition w
        ∧ trace w'
          = trace w ++ [CallIsExpenseReport; CallHasExpensifyPaymentMethod]
              ++ (if truthy (js_and (tierName wallet)
                               (JsBool (strict_eq (tierName wallet)
                                          (JsStr (WALLET_TIER_NAME_GOLD CONST)))))
                  then [CallLogInfo "[KYC Wallet] User has valid payment method and passed KYC checks or did not need them";
                        CallOnSuccessfulKYC iouPaymentType]
                  else [CallLogInfo "[KYC Wallet] User does not have gold wallet";
                        CallNavigate (enablePaymentsRoute props)]).
Proof.
  intros Hidle Hexp Hhas Hwallet. run_handlers.
  rewrite Hidle, Hexp. cbn. rewrite Hhas, Hwallet. cbn.
  destruct (truthy _); cbn; eexists; (split; [reflexivity |]); cbn;
    repeat split; try done; by rewrite <- !app_assoc.
Qed.

(** C1, as the code has it. A press in the idle state on an expense report
    whose reimbursement account is not open logs, places the menu at the
    pressed element and opens it; the payable-method predicate is not
    consulted, nothing is navigated to and the continuation is not called. *)
Theorem continueAction_expense_blocked (props : Props) (event : PressEvent)
    (iouPaymentType : string) (w : World) :
  shouldShowAddPaymentMenu w = false →
  isExpenseReport (iouReport props) = true →
  lodashGet_achData_state (reimbursementAccount props)
    ≠ JsStr (BANK_ACCOUNT_STATE_OPEN CONST) →
  ∃ w', continueAction props event iouPaymentType w = Returned () w'
        ∧ shouldShowAddPaymentMenu w' = true
        ∧ anchorPosition w'
          = getAnchorPosition CONST (popoverPlacement props)
              (layout w (target (nativeEvent event)))
        ∧ trace w'
          = trace w
              ++ [CallIsExpenseReport;
                  CallLogInfo "[KYC Wallet] User does not have valid payment method";
                  CallGetClickedTargetLocation (target (nativeEvent event))].
Proof.
  intros Hidle Hexp Hstate.
  destruct (continueAction_blocked props event iouPaymentType w [CallIsExpenseReport])
    as (w' & Hrun & Hmenu & _ & Hanchor & _ & Htrace); [done | by left |].
  exists w'. by rewrite Htrace.
Qed.

(** C6. A press in the idle state outside an expense report, with a payable
    method on file and a wallet whose tier is not GOLD, navigates once to
    the enable-payments route; the continuation is not called and the menu
    stays closed. *)
Theorem continueAction_needs_upgrade (props : Props) (event : PressEvent)
    (iouPaymentType : string) (w : World) (wallet : UserWallet) :
  shouldShowAddPaymentMenu w = false →
  isExpenseReport (iouReport props) = false →
  hasExpensifyPaymentMethod (default ∅ (fundList props)) (bankAccountList props) = true →
  userWallet props = Some wallet →
  tierName wallet ≠ JsStr (WALLET_TIER_NAME_GOLD CONST) →
  ∃ w', continueAction props event iouPaymentType w = Returned () w'
        ∧ shouldShowAddPaymentMenu w' = false
        ∧ trace w'
          = trace w
              ++ [CallIsExpenseReport; CallHasExpensifyPaymentMethod;
                  CallLogInfo "[KYC Wallet] User does not have gold wallet";
                  CallNavigate (enablePaymentsRoute props)].
Proof.
  intros Hidle Hexp Hhas Hwallet Htier.
  destruct (continueAction_wallet_check props event iouPaymentType w wallet)
    as (w' & Hrun & Hmenu & _ & Htrace); [done.. |].
  exists w'. split; [done |]. split; [done |]. rewrite Htrace.
  apply strict_eq_false in Htier. rewrite Htier.
  unfold js_and. by destruct (truthy (tierName wallet)) eqn:Ht; [| rewrite Ht].
Qed.

(** C7. With a payable method on file, outside an expense report and with a
    GOLD wallet, the press passes: the continuation is called once with the
    payment type given, nothing is navigated to and the menu stays closed. *)
Theorem continueAction_passes_gold (props : Props) (event : PressEvent)
    (iouPaymentType : string) (w : World) (wallet : UserWallet) :
  WALLET_TIER_NAME_GOLD CONST ≠ "" →
  shouldShowAddPaymentMenu w = false →
  isExpenseReport (iouReport props) = false →
  hasExpensifyPaymentMethod (default ∅ (fundList props)) (bankAccountList props) = true →
  userWallet props = Some wallet →
  tierName wallet = JsStr (WALLET_TIER_NAME_GOLD CONST) →
  ∃ w', continueAction props event iouPaymentType w = Returned () w'
        ∧ shouldShowAddPaymentMenu w' = false
        ∧ trace w'
          = trace w
              ++ [CallIsExpenseReport; CallHasExpensifyPaymentMethod;
                  CallLogInfo "[KYC Wallet] User has valid payment method and passed KYC checks or did not need them";
                  CallOnSuccessfulKYC iouPaymentType].
Proof.
  intros Hgold Hidle Hexp Hhas Hwallet Htier.
  destruct (continueAction_wallet_check props event iouPaymentType w wallet)
    as (w' & Hrun & Hmenu & _ & Htrace); [done.. |].
  exists w'. split; [done |]. split; [done |]. rewrite Htrace, Htier.
  unfold js_and. rewrite (truthy_JsStr _ Hgold), strict_eq_refl. done.
Qed.

(** C10. With a payable method on file and outside an expense report, a
    wallet whose tier name is missing, empty or otherwise falsy is handled
    like any tier that is not GOLD: the press returns normally, navigates to
    the enable-payments route, does not call the continuation and does not
    open the menu. *)
Theorem continueAction_falsy_tier (props : Props) (event : PressEvent)
    (iouPaymentType : string) (w : World) (wallet : UserWallet) :
  shouldShowAddPaymentMenu w = false →
  isExpenseReport (iouReport props) = false →
  hasExpensifyPaymentMethod (default ∅ (fundList props)) (bankAccountList props) = true →
  userWallet props = Some wallet →
  truthy (tierName wallet) = false →
  ∃ w', continueAction props event iouPaymentType w = Returned () w'
        ∧ shouldShowAddPaymentMenu w' = false
        ∧ trace w'
          = trace w
              ++ [CallIsExpenseReport; CallHasExpensifyPaymentMethod;
                  CallLogInfo "[KYC Wallet] User does not have gold wallet";
                  CallNavigate (enablePaymentsRoute props)].
Proof.
  intros Hidle Hexp Hhas Hwallet Hfalsy.
  destruct (continueAction_wallet_check props event iouPaymentType w wallet)
    as (w' & Hrun & Hmenu & _ & Htrace); [done.. |].
  exists w'. split; [done |]. split; [done |]. rewrite Htrace.
  unfold js_and. by rewrite !Hfalsy.
Qed.

(** C9. A selection reported by the menu hides the menu first, and then
    navigates: to the add-bank-account route for the bank account item, to
    the add-debit-card route for the debit card item, nowhere for any other
    value. *)
Theorem handleItemSelected_routes (props : Props) (item : JsVal) (w : World) :
  PAYMENT_METHODS_BANK_ACCOUNT CONST ≠ PAYMENT_METHODS_DEBIT_CARD CONST →
  ∃ w1 w',
    setShouldShowAddPaymentMenu false w = Returned () w1
    ∧ shouldShowAddPaymentMenu w1 = false
    ∧ handleItemSelected props item w = Returned () w'
    ∧ shouldShowAddPaymentMenu w' = false
    ∧ (item = JsStr (PAYMENT_METHODS_BANK_ACCOUNT CONST) →
       Navigation_navigate (addBankAccountRoute props) w1 = Returned () w'
       ∧ trace w' = trace w ++ [CallNavigate (addBankAccountRoute props)])
    ∧ (item = JsStr (PAYMENT_METHODS_DEBIT_CARD CONST) →
       Navigation_navigate (addDebitCardRoute props) w1 = Returned () w'
       ∧ trace w' = trace w ++ [CallNavigate (addDebitCardRoute props)])
    ∧ (item ≠ JsStr (PAYMENT_METHODS_BANK_ACCOUNT CONST) →
       item ≠ JsStr (PAYMENT_METHODS_DEBIT_CARD CONST) →
       w' = w1 ∧ trace w' = trace w).
Proof.
  intros Hdistinct. run_handlers.
  destruct (strict_eq item (JsStr (PAYMENT_METHODS_BANK_ACCOUNT CONST))) eqn:Hbank;
    [| destruct (strict_eq item (JsStr (PAYMENT_METHODS_DEBIT_CARD CONST))) eqn:Hcard].
  - apply strict_eq_true in Hbank.
    eexists _, _. repeat split; try reflexivity; intros; congruence.
  - apply strict_eq_false in Hbank. apply strict_eq_true in Hcard.
    eexists _, _. repeat split; try reflexivity; intros; congruence.
  - apply strict_eq_false in Hbank. apply strict_eq_false in Hcard.
    eexists _, _. repeat split; try reflexivity; intros; congruence.
Qed.

(** C2, as the code has it. Mounting registers [this] as the active wall
    and publishes the chat report identifier; the cleanup puts the wall
    reference back to [null] and leaves the published identifier as it was,
    from whatever world it runs in. *)
Theorem useEffect_cleanup_clears_wall_ref (this : JsVal) (props : Props) :
  (∀ w0, ∃ subscription w1 w2,
     useEffect_setup this props w0 = Returned subscription w1
     ∧ kycWallRef w1 = this
     ∧ kycWallSourceChatReportID w1 = Some (chatReportID props)
     ∧ useEffect_cleanup props subscription w1 = Returned () w2
     ∧ kycWallRef w2 = JsNull
     ∧ kycWallSourceChatReportID w2 = Some (chatReportID props))
  ∧ (∀ subscription w, ∃ w',
       useEffect_cleanup props subscription w = Returned () w'
       ∧ kycWallRef w' = JsNull
       ∧ kycWallSourceChatReportID w' = kycWallSourceChatReportID w
       ∧ shouldShowAddPaymentMenu w' = shouldShowAddPaymentMenu w
       ∧ trace w'
         = trace w
             ++ match shouldListenForResize props, subscription with
                | true, Some s => [CallRemove s]
                | _, _ => []
                end).
Proof.
  split.
  - intros w0. run_handlers. destruct (shouldListenForResize props); cbn;
      eexists _, _, _; repeat split; reflexivity.
  - intros subscription w. run_handlers.
    destruct (shouldListenForResize props), subscription; cbn;
      eexists; repeat split; try reflexivity; by rewrite app_nil_r.
Qed.

(** *** The anchor of an open menu *)

(** What a press leaves behind, whichever branch it takes. *)
Lemma continueAction_frame (props : Props) (event : PressEvent)
    (iouPaymentType : string) (w w' : World) :
  continueAction props event iouPaymentType w = Returned () w' →
  dimensionsListeners w' = dimensionsListeners w
  ∧ layout w' = layout w
  ∧ (shouldShowAddPaymentMenu w' = true →
     shouldShowAddPaymentMenu w = false
     ∧ transferBalanceButtonRef w' = Some (target (nativeEvent event))
     ∧ anchorPosition w'
       = getAnchorPosition CONST (popoverPlacement props)
           (layout w (target (nativeEvent event)))).
Proof.
  run_handlers.
  destruct (shouldShowAddPaymentMenu w) eqn:Hshown; cbn.
  { intros [= <-]. cbn. by repeat split. }
  destruct (isExpenseReport (iouReport props)); cbn.
  - destruct (strict_eq _ _); cbn; intros [= <-]; cbn;
      repeat split; try done; try congruence; apply anchor_eta.
  - destruct (hasExpensifyPaymentMethod _ _); cbn.
    + destruct (userWallet props) as [wallet |]; [| done].
      cbn. destruct (truthy _); cbn; intros [= <-]; cbn;
        repeat split; try done; congruence.
    + intros [= <-]. cbn. repeat split; try done. apply anchor_eta.
Qed.

(** One run of the listeners registered for window changes. *)
Lemma run_listeners (props : Props) (listeners : list nat) (w : World) :
  ∃ w', foldr (λ _ rest, setMenuPosition CONST props;; rest) (mret ()) listeners w
        = Returned () w'
        ∧ shouldShowAddPaymentMenu w' = shouldShowAddPaymentMenu w
        ∧ transferBalanceButtonRef w' = transferBalanceButtonRef w
        ∧ dimensionsListeners w' = dimensionsListeners w
        ∧ layout w' = layout w
        ∧ (∀ el, transferBalanceButtonRef w = Some el → listeners ≠ [] →
             anchorPosition w'
             = getAnchorPosition CONST (popoverPlacement props) (layout w el))
        ∧ (transferBalanceButtonRef w = None ∨ listeners = [] →
             anchorPosition w' = anchorPosition w).
Proof.
  revert w. induction listeners as [| s listeners IH]; intros w.
  - exists w. by repeat split.
  - cbn [foldr]. unfold mbind at 1, M_bind at 1.
    destruct (transferBalanceButtonRef w) as [el |] eqn:Href.
    + assert (∃ w1, setMenuPosition CONST props w = Returned () w1
                ∧ shouldShowAddPaymentMenu w1 = shouldShowAddPaymentMenu w
                ∧ transferBalanceButtonRef w1 = Some el
                ∧ dimensionsListeners w1 = dimensionsListeners w
                ∧ layout w1 = layout w
                ∧ anchorPosition w1
                  = getAnchorPosition CONST (popoverPlacement props) (layout w el))
        as (w1 & -> & Hm1 & Hr1 & Hl1 & Hp1 & Ha1).
      { run_handlers. rewrite Href. eexists. split; [reflexivity |]. cbn.
        repeat split; try done. apply anchor_eta. }
      destruct (IH w1) as (w' & Hrun & Hm & Hr & Hl & Hp & Hsome & Hnone).
      exists w'. split; [done |].
      rewrite Hm, Hr, Hl, Hp. repeat split; try done.
      * intros el' [= <-] _. destruct listeners as [| s' rest].
        -- rewrite Hnone by (by right). done.
        -- rewrite (Hsome el Hr1) by done. by rewrite Hp1.
      * intros [? | ?]; done.
    + assert (setMenuPosition CONST props w = Returned () w) as ->.
      { run_handlers. by rewrite Href. }
      destruct (IH w) as (w' & Hrun & Hm & Hr & Hl & Hp & Hsome & Hnone).
      exists w'. repeat split; try done; [congruence |].
      intros _. apply Hnone. by left.
Qed.

(** A change of the window dimensions, seen from outside. *)
Lemma Dimensions_change_spec (props : Props) (newLayout : Element → DOMRect)
    (w : World) :
  ∃ w', Dimensions_change CONST props newLayout w = Returned () w'
        ∧ shouldShowAddPaymentMenu w' = shouldShowAddPaymentMenu w
        ∧ transferBalanceButtonRef w' = transferBalanceButtonRef w
        ∧ dimensionsListeners w' = dimensionsListeners w
        ∧ layout w' = newLayout
        ∧ (∀ el, transferBalanceButtonRef w = Some el → dimensionsListeners w ≠ [] →
             anchorPosition w'
             = getAnchorPosition CONST (popoverPlacement props) (newLayout el))
        ∧ (transferBalanceButtonRef w = None ∨ dimensionsListeners w = [] →
             anchorPosition w' = anchorPosition w).
Proof.
  unfold Dimensions_change, set_layout, gets, modify.
  unfold mbind at 1 2, M_bind at 1 2.
  cbn [dimensionsListeners].
  match goal with
  | |- context [foldr _ _ ?l ?w1] =>
      destruct (run_listeners props l w1) as (w' & Hrun & Hm & Hr & Hl & Hp & Hs & Hn)
  end.
  exists w'. split; [exact Hrun |]. cbn in *. by repeat split.
Qed.

(** With the resize listener on, every world of a mounted wall has the
    listener registered and an open menu anchored at the pressed element. *)
Lemma reachable_anchored (this : JsVal) (placement : string) (w : World) :
  reachable CONST isExpenseReport hasExpensifyPaymentMethod this placement true w →
  anchored CONST placement w ∧ dimensionsListeners w ≠ [].
Proof.
  induction 1 as [props w0 subscription w (Hmenu & _ & _) Hnil Hplace Hlisten Hsetup
                 | props a w w' Hreach [IHanchored IHlisteners] Hplace Hstep].
  - revert Hsetup. run_handlers. rewrite Hlisten, Hnil. cbn.
    intros [= _ <-]. split; [| done].
    intros Hshown. cbn in Hshown. congruence.
  - destruct a as [event iouPaymentType | item | | newLayout]; cbn [handle] in Hstep.
    + apply continueAction_frame in Hstep as (Hl & Hp & Hopen).
      split; [| by rewrite Hl].
      intros Hshown. destruct (Hopen Hshown) as (_ & Href & Hanchor).
      exists (target (nativeEvent event)). rewrite Hp, <- Hplace. done.
    + revert Hstep. run_handlers.
      destruct (strict_eq _ _); [| destruct (strict_eq _ _)]; intros [= <-];
        (split; [intros Hshown; cbn in Hshown; discriminate | done]).
    + revert Hstep. run_handlers. intros [= <-].
      split; [intros Hshown; cbn in Hshown; discriminate | done].
    + destruct (Dimensions_change_spec props newLayout w)
        as (w2 & Hrun & Hm & Hr & Hl & Hp & Hsome & _).
      rewrite Hrun in Hstep. injection Hstep as <-.
      split; [| by rewrite Hl].
      intros Hshown. rewrite Hm in Hshown.
      destruct (IHanchored Hshown) as (el & Href & _).
      exists el. split; [by rewrite Hr |].
      rewrite Hp, <- Hplace. by apply Hsome.
Qed.

(** C3, as the code has it. For a wall mounted with [shouldListenForResize]
    on: whenever the menu is shown, its anchor is the one computed from the
    place the last pressed element has on the page now. A press that opens
    the menu computes the anchor from the place of the pressed element at
    that moment; a change of the window dimensions leaves the visibility as
    it is and recomputes the anchor from the new place of that element. *)
Theorem open_menu_is_anchored (this : JsVal) (placement : string) (w : World) :
  reachable CONST isExpenseReport hasExpensifyPaymentMethod this placement true w →
  anchored CONST placement w
  ∧ (∀ props event iouPaymentType w',
       popoverPlacement props = placement →
       continueAction props event iouPaymentType w = Returned () w' →
       shouldShowAddPaymentMenu w' = true →
       layout w' = layout w
       ∧ anchorPosition w'
         = getAnchorPosition CONST placement (layout w (target (nativeEvent event))))
  ∧ (∀ (props : Props) newLayout,
       popoverPlacement props = placement →
       ∃ w', handle CONST isExpenseReport hasExpensifyPaymentMethod props
               (DimensionsChange newLayout) w = Returned () w'
             ∧ shouldShowAddPaymentMenu w' = shouldShowAddPaymentMenu w
             ∧ layout w' = newLayout
             ∧ anchored CONST placement w'
             ∧ (∀ el, transferBalanceButtonRef w = Some el →
                  anchorPosition w' = getAnchorPosition CONST placement (newLayout el))).
Proof.
  intros Hreach.
  destruct (reachable_anchored this placement w Hreach) as [Hanchored Hlisteners].
  split; [done |]. split.
  - intros props event iouPaymentType w' <- Hrun Hshown.
    apply continueAction_frame in Hrun as (_ & Hp & Hopen).
    by destruct (Hopen Hshown) as (_ & _ & ->).
  - intros props newLayout Hplace. cbn [handle].
    destruct (Dimensions_change_spec props newLayout w)
      as (w' & Hrun & Hm & Hr & Hl & Hp & Hsome & _).
    exists w'. split; [done |]. split; [done |]. split; [done |]. split.
    + apply (reachable_anchored this).
      eapply reachable_step with (a := DimensionsChange newLayout);
        [exact Hreach | exact Hplace | exact Hrun].
    + intros el Href. rewrite <- Hplace. by apply Hsome.
Qed.

End Properties.

(** C5, as the code has it. In binary64 arithmetic [getAnchorPosition]
    puts the menu at [top + (height - 2)], [left + 20] for the placement
    "bottom", the offset being taken from the height before the top is
    added, and at [top - POPOVER_MENU_PADDING], [left] for every other
    placement; a 80 by 20 element at top 100, left 50 gives 118, 70 at the
    bottom and, with a padding of 8, 92, 50 at the top. This holds for every
    rectangle of doubles, fractions, infinities and NaN included. *)
Theorem getAnchorPosition_spec (CONST : CONST_t) (domRect : DOMRect) :
  getAnchorPosition CONST "bottom" domRect
  = mkAnchor (top domRect + (height domRect - 2)) (left domRect + 20)
  ∧ (∀ placement, placement ≠ "bottom" →
       getAnchorPosition CONST placement domRect
       = mkAnchor (top domRect - MODAL_POPOVER_MENU_PADDING CONST) (left domRect))
  ∧ getAnchorPosition CONST "bottom" (mkDOMRect 100 50 80 20) = mkAnchor 118 70
  ∧ (MODAL_POPOVER_MENU_PADDING CONST = 8%float →
       getAnchorPosition CONST "top" (mkDOMRect 100 50 80 20) = mkAnchor 92 50).
Proof.
  repeat split.
  - intros placement Hplacement. unfold getAnchorPosition.
    destruct (String.eqb_spec placement "bottom"); [contradiction | reflexivity].
  - intros Hpadding. unfold getAnchorPosition. cbn. by rewrite Hpadding.
Qed.

(** C8, as the code has it. Outside an expense report a missing fund list or
    bank account list is taken for an empty one: the press runs exactly as
    it does with the empty list in its place. When the lists that are there
    hold no usable instrument, as when both are missing, the press returns
    normally with the add-payment menu open. *)
Theorem continueAction_absent_lists {Report Fund BankAccount : Type}
    (CONST : CONST_t) (isExpenseReport : option Report → bool)
    (usable : Fund + BankAccount → bool)
    (props : Props Report Fund BankAccount) (event : PressEvent)
    (iouPaymentType : string) (w : World) :
  shouldShowAddPaymentMenu w = false →
  isExpenseReport (iouReport props) = false →
  continueAction CONST isExpenseReport (hasPayableMethod usable) props
    event iouPaymentType w
  = continueAction CONST isExpenseReport (hasPayableMethod usable)
      (withEmptyLists props) event iouPaymentType w
  ∧ ((∀ i, i ∈ instruments (default ∅ (fundList props)) (bankAccountList props) →
           usable i = false) →
     ∃ w', continueAction CONST isExpenseReport (hasPayableMethod usable) props
             event iouPaymentType w = Returned () w'
           ∧ shouldShowAddPaymentMenu w' = true
           ∧ anchorPosition w'
             = getAnchorPosition CONST (popoverPlacement props)
                 (layout w (target (nativeEvent event)))
           ∧ trace w'
             = trace w
                 ++ [CallIsExpenseReport; CallHasExpensifyPaymentMethod;
                     CallLogInfo "[KYC Wallet] User does not have valid payment method";
                     CallGetClickedTargetLocation (target (nativeEvent event))]).
Proof.
  intros Hidle Hexp. split; [reflexivity |].
  intros Hnone.
  assert (hasPayableMethod usable (default ∅ (fundList props)) (bankAccountList props)
          = false) as Hblocked.
  { unfold hasPayableMethod. apply not_true_is_false. intros Hsome.
    apply existsb_exists in Hsome as (i & Hin & Hi).
    apply list_elem_of_In in Hin. rewrite (Hnone i Hin) in Hi. discriminate. }
  destruct (continueAction_blocked CONST isExpenseReport (hasPayableMethod usable)
              props event iouPaymentType w
              [CallIsExpenseReport; CallHasExpensifyPaymentMethod])
    as (w' & Hrun & Hmenu & _ & Hanchor & _ & Htrace); [done | by right |].
  exists w'. by rewrite Htrace.
Qed.

(** ** The theorems at sample inputs *)

Lemma continueAction_toggles_open_menu_witness :
  shouldShowAddPaymentMenu (Sample.opened true) = true
  ∧ ∃ w', continueAction Sample.CONST Sample.isExpenseReport Sample.hasPM
            (Sample.cardProps (JsStr "GOLD")) Sample.press "elsewhere"
            (Sample.opened true) = Returned () w'
          ∧ shouldShowAddPaymentMenu w' = false
          ∧ trace w' = trace (Sample.opened true)
          ∧ anchorPosition w' = anchorPosition (Sample.opened true)
          ∧ transferBalanceButtonRef w' = transferBalanceButtonRef (Sample.opened true).
Proof.
  split; [reflexivity |].
  apply (continueAction_toggles_open_menu Sample.CONST Sample.isExpenseReport
           Sample.hasPM (Sample.cardProps (JsStr "GOLD")) Sample.press "elsewhere"
           (Sample.opened true)).
  reflexivity.
Defined.

Lemma continueAction_expense_blocked_witness :
  ∃ w', continueAction Sample.CONST Sample.isExpenseReport Sample.hasPM
          Sample.expenseProps Sample.press "expense" Sample.world0 = Returned () w'
        ∧ shouldShowAddPaymentMenu w' = true
        ∧ anchorPosition w'
          = getAnchorPosition Sample.CONST "bottom" (Sample.page 7%nat)
        ∧ trace w'
          = [CallIsExpenseReport;
             CallLogInfo "[KYC Wallet] User does not have valid payment method";
             CallGetClickedTargetLocation 7%nat].
Proof.
  apply (continueAction_expense_blocked Sample.CONST Sample.isExpenseReport
           Sample.hasPM Sample.expenseProps Sample.press "expense" Sample.world0).
  - reflexivity.
  - reflexivity.
  - vm_compute. discriminate.
Defined.

Lemma continueAction_needs_upgrade_witness :
  ∃ w', continueAction Sample.CONST Sample.isExpenseReport Sample.hasPM
          (Sample.cardProps (JsStr "SILVER")) Sample.press "elsewhere" Sample.world0
        = Returned () w'
        ∧ shouldShowAddPaymentMenu w' = false
        ∧ trace w'
          = [CallIsExpenseReport; CallHasExpensifyPaymentMethod;
             CallLogInfo "[KYC Wallet] User does not have gold wallet";
             CallNavigate "enable-payments"].
Proof.
  apply (continueAction_needs_upgrade Sample.CONST Sample.isExpenseReport
           Sample.hasPM (Sample.cardProps (JsStr "SILVER")) Sample.press "elsewhere"
           Sample.world0 (mkUserWallet (JsStr "SILVER"))).
  - reflexivity.
  - reflexivity.
  - vm_compute. reflexivity.
  - reflexivity.
  - vm_compute. discriminate.
Defined.

Lemma continueAction_passes_gold_witness :
  ∃ w', continueAction Sample.CONST Sample.isExpenseReport Sample.hasPM
          (Sample.cardProps (JsStr "GOLD")) Sample.press "elsewhere" Sample.world0
        = Returned () w'
        ∧ shouldShowAddPaymentMenu w' = false
        ∧ trace w'
          = [CallIsExpenseReport; CallHasExpensifyPaymentMethod;
             CallLogInfo "[KYC Wallet] User has valid payment method and passed KYC checks or did not need them";
             CallOnSuccessfulKYC "elsewhere"].
Proof.
  apply (continueAction_passes_gold Sample.CONST Sample.isExpenseReport
           Sample.hasPM (Sample.cardProps (JsStr "GOLD")) Sample.press "elsewhere"
           Sample.world0 (mkUserWallet (JsStr "GOLD"))).
  - vm_compute. discriminate.
  - reflexivity.
  - reflexivity.
  - vm_compute. reflexivity.
  - reflexivity.
  - reflexivity.
Defined.

Lemma continueAction_falsy_tier_witness :
  ∃ w', continueAction Sample.CONST Sample.isExpenseReport Sample.hasPM
          (Sample.cardProps JsUndefined) Sample.press "elsewhere" Sample.world0
        = Returned () w'
        ∧ shouldShowAddPaymentMenu w' = false
        ∧ trace w'
          = [CallIsExpenseReport; CallHasExpensifyPaymentMethod;
             CallLogInfo "[KYC Wallet] User does not have gold wallet";
             CallNavigate "enable-payments"].
Proof.
  apply (continueAction_falsy_tier Sample.CONST Sample.isExpenseReport
           Sample.hasPM (Sample.cardProps JsUndefined) Sample.press "elsewhere"
           Sample.world0 (mkUserWallet JsUndefined)).
  - reflexivity.
  - reflexivity.
  - vm_compute. reflexivity.
  - reflexivity.
  - reflexivity.
Defined.

Lemma handleItemSelected_routes_witness :
  ∃ w1 w',
    setShouldShowAddPaymentMenu false (Sample.opened true) = Returned () w1
    ∧ shouldShowAddPaymentMenu w1 = false
    ∧ handleItemSelected Sample.CONST (Sample.cardProps JsUndefined)
        (JsStr "debitCard") (Sample.opened true) = Returned () w'
    ∧ shouldShowAddPaymentMenu w' = false
    ∧ (JsStr "debitCard" = JsStr "bankAccount" →
       Navigation_navigate "add-bank-account" w1 = Returned () w'
       ∧ trace w' = trace (Sample.opened true) ++ [CallNavigate "add-bank-account"])
    ∧ (JsStr "debitCard" = JsStr "debitCard" →
       Navigation_navigate "add-debit-card" w1 = Returned () w'
       ∧ trace w' = trace (Sample.opened true) ++ [CallNavigate "add-debit-card"])
    ∧ (JsStr "debitCard" ≠ JsStr "bankAccount" →
       JsStr "debitCard" ≠ JsStr "debitCard" →
       w' = w1 ∧ trace w' = trace (Sample.opened true)).
Proof.
  apply (handleItemSelected_routes Sample.CONST (Sample.cardProps JsUndefined)
           (JsStr "debitCard") (Sample.opened true)).
  vm_compute. discriminate.
Defined.

Lemma getAnchorPosition_spec_witness :
  MODAL_POPOVER_MENU_PADDING Sample.CONST = 8%float
  ∧ getAnchorPosition Sample.CONST "top" (mkDOMRect 100 50 80 20) = mkAnchor 92 50
  ∧ getAnchorPosition Sample.CONST "left" Sample.rectAfterResize = mkAnchor 292 10.
Proof.
  destruct (getAnchorPosition_spec Sample.CONST Sample.rectAfterResize)
    as (_ & Hother & _ & Htop).
  split; [reflexivity |]. split.
  - apply Htop. reflexivity.
  - apply (Hother "left"). vm_compute. discriminate.
Defined.

(** The sample wall with the listener on, pressed open, is a world of the
    transition system. *)
Lemma opened_reachable :
  reachable Sample.CONST Sample.isExpenseReport Sample.hasPM Sample.this
    "bottom" true (Sample.opened true).
Proof.
  apply reachable_step
    with (props := Sample.props true "bottom" None None None None)
         (a := Press Sample.press "elsewhere") (w := Sample.mounted true).
  - apply reachable_mount
      with (props := Sample.props true "bottom" None None None None)
           (w0 := Sample.world0) (subscription := Some 1%nat).
    + by repeat split.
    + reflexivity.
    + reflexivity.
    + reflexivity.
    + reflexivity.
  - reflexivity.
  - vm_compute. reflexivity.
Defined.

Lemma open_menu_is_anchored_witness :
  shouldShowAddPaymentMenu (Sample.opened true) = true
  ∧ anchored Sample.CONST "bottom" (Sample.opened true)
  ∧ ∃ w', handle Sample.CONST Sample.isExpenseReport Sample.hasPM
            (Sample.cardProps JsUndefined) (DimensionsChange Sample.pageAfterResize)
            (Sample.opened true) = Returned () w'
          ∧ shouldShowAddPaymentMenu w' = true
          ∧ anchorPosition w'
            = getAnchorPosition Sample.CONST "bottom" (Sample.pageAfterResize 7%nat).
Proof.
  destruct (open_menu_is_anchored Sample.CONST Sample.isExpenseReport Sample.hasPM
              Sample.this "bottom" (Sample.opened true) opened_reachable)
    as (Hanchored & _ & Hresize).
  split; [reflexivity |]. split; [exact Hanchored |].
  destruct (Hresize (Sample.cardProps JsUndefined) Sample.pageAfterResize eq_refl)
    as (w' & Hrun & Hshown & _ & _ & Hanchor).
  exists w'. split; [exact Hrun |]. split; [exact Hshown |].
  apply Hanchor. reflexivity.
Defined.

Lemma continueAction_absent_lists_witness :
  fundList (Sample.props true "top" None None None None) = None
  ∧ bankAccountList (Sample.props true "top" None None None None) = None
  ∧ ∃ w', continueAction Sample.CONST Sample.isExpenseReport Sample.hasPM
            (Sample.props true "top" None None None None) Sample.press "elsewhere"
            Sample.world0 = Returned () w'
          ∧ shouldShowAddPaymentMenu w' = true
          ∧ anchorPosition w' = mkAnchor 92 50.
Proof.
  destruct (continueAction_absent_lists Sample.CONST Sample.isExpenseReport
              Sample.usable (Sample.props true "top" None None None None)
              Sample.press "elsewhere" Sample.world0 eq_refl eq_refl)
    as [_ Hmenu].
  split; [reflexivity |]. split; [reflexivity |].
  destruct Hmenu as (w' & Hrun & Hshown & Hanchor & _).
  - intros i Hi. vm_compute in Hi. inversion Hi.
  - exists w'. split; [exact Hrun |]. split; [exact Hshown |]. exact Hanchor.
Defined.

(** ** Where the written claims and the code part *)

(** C1: on an expense report whose reimbursement account is not open, the
    press does open the menu. *)
Lemma continueAction_expense_blocked_opens_menu :
  shouldShowAddPaymentMenu Sample.world0 = false
  ∧ Sample.isExpenseReport (iouReport Sample.expenseProps) = true
  ∧ lodashGet_achData_state (reimbursementAccount Sample.expenseProps)
    ≠ JsStr (BANK_ACCOUNT_STATE_OPEN Sample.CONST)
  ∧ ∃ w', continueAction Sample.CONST Sample.isExpenseReport Sample.hasPM
            Sample.expenseProps Sample.press "expense" Sample.world0 = Returned () w'
          ∧ shouldShowAddPaymentMenu w' ≠ false.
Proof.
  split; [reflexivity |]. split; [reflexivity |]. split; [vm_compute; discriminate |].
  eexists. split; [vm_compute; reflexivity |]. cbn. discriminate.
Qed.

(** C2: after mount and cleanup the published chat report identifier is
    still there. *)
Lemma useEffect_cleanup_keeps_chat_report_id :
  ∃ subscription w1 w2,
    useEffect_setup Sample.this (Sample.props true "bottom" None None None None)
      Sample.world0 = Returned subscription w1
    ∧ useEffect_cleanup (Sample.props true "bottom" None None None None)
        subscription w1 = Returned () w2
    ∧ kycWallRef w2 = JsNull
    ∧ kycWallSourceChatReportID w2 = Some "42"
    ∧ kycWallSourceChatReportID w2 ≠ None.
Proof.
  eexists _, _, _. split; [vm_compute; reflexivity |].
  split; [vm_compute; reflexivity |]. cbn. by repeat split.
Qed.

(** C3: mounted without the resize listener, the menu stays where it was
    put when the window changes under it. *)
Lemma resize_without_listener_leaves_anchor :
  reachable Sample.CONST Sample.isExpenseReport Sample.hasPM Sample.this
    "bottom" false (Sample.resized false)
  ∧ shouldShowAddPaymentMenu (Sample.resized false) = true
  ∧ transferBalanceButtonRef (Sample.resized false) = Some 7%nat
  ∧ anchorPosition (Sample.resized false) = mkAnchor 118 70
  ∧ getAnchorPosition Sample.CONST "bottom" (layout (Sample.resized false) 7%nat)
    = mkAnchor 318 30
  ∧ ¬ anchored Sample.CONST "bottom" (Sample.resized false).
Proof.
  split.
  { apply reachable_step
      with (props := Sample.props false "bottom" None None None None)
           (a := DimensionsChange Sample.pageAfterResize) (w := Sample.opened false);
      [| reflexivity | vm_compute; reflexivity].
    apply reachable_step
      with (props := Sample.props false "bottom" None None None None)
           (a := Press Sample.press "elsewhere") (w := Sample.mounted false);
      [| reflexivity | vm_compute; reflexivity].
    apply reachable_mount
      with (props := Sample.props false "bottom" None None None None)
           (w0 := Sample.world0) (subscription := None);
      try reflexivity. by repeat split. }
  split; [vm_compute; reflexivity |]. split; [vm_compute; reflexivity |].
  split; [vm_compute; reflexivity |]. split; [vm_compute; reflexivity |].
  intros Hanchored. destruct Hanchored as (el & _ & Hanchor); [vm_compute; reflexivity |].
  apply (f_equal (λ a, PrimFloat.ltb (anchorPositionVertical a) 200)) in Hanchor.
  vm_compute in Hanchor. discriminate.
Qed.

(** C5: for an element at top 0.2 of height 2.3 the bottom anchor is
    0.49999999999999983, where adding the height to the top first and then
    taking off 2 gives 0.5. *)
Lemma getAnchorPosition_bottom_is_not_left_associated :
  anchorPositionVertical
    (getAnchorPosition Sample.CONST "bottom" Scenario.fractionalRect)
  = 0x1.ffffffffffffdp-2%float
  ∧ (top Scenario.fractionalRect + height Scenario.fractionalRect - 2)%float
    = 0.5%float
  ∧ getAnchorPosition Sample.CONST "bottom" Scenario.fractionalRect
    ≠ mkAnchor (top Scenario.fractionalRect + height Scenario.fractionalRect - 2)
        (left Scenario.fractionalRect + 20).
Proof.
  split; [vm_compute; reflexivity |]. split; [vm_compute; reflexivity |].
  intros Hsame.
  apply (f_equal (λ a, PrimFloat.eqb (anchorPositionVertical a) 0.5)) in Hsame.
  vm_compute in Hsame. discriminate.
Qed.

(** C8: with the fund list missing and a usable bank account on file, the
    press passes the gate; the menu is not shown. *)
Lemma continueAction_absent_fund_list_passes :
  shouldShowAddPaymentMenu Sample.world0 = false
  ∧ Sample.isExpenseReport (iouReport Sample.bankOnlyProps) = false
  ∧ fundList Sample.bankOnlyProps = None
  ∧ ∃ w', continueAction Sample.CONST Sample.isExpenseReport Sample.hasPM
            Sample.bankOnlyProps Sample.press "elsewhere" Sample.world0
          = Returned () w'
          ∧ shouldShowAddPaymentMenu w' = false
          ∧ trace w'
            = [CallIsExpenseReport; CallHasExpensifyPaymentMethod;
               CallLogInfo "[KYC Wallet] User has valid payment method and passed KYC checks or did not need them";
               CallOnSuccessfulKYC "elsewhere"].
Proof.
  split; [reflexivity |]. split; [reflexivity |]. split; [reflexivity |].
  eexists. split; [vm_compute; reflexivity |]. by cbn.
Qed.

(** * Further properties of the component *)

Section Branches.

Context {Report Fund BankAccount : Type}.
Variable CONST : CONST_t.
Variable isExpenseReport : option Report → bool.
Variable hasExpensifyPaymentMethod :
  gmap string Fund → option (gmap string BankAccount) → bool.

Abbreviation continueAction :=
  (continueAction CONST isExpenseReport hasExpensifyPaymentMethod).
Abbreviation handle := (handle CONST isExpenseReport hasExpensifyPaymentMethod).
Abbreviation Props := (Props Report Fund BankAccount).

(** X2. On an expense report whose reimbursement account is open the press
    passes at once: the continuation is called with the payment type, the
    payable-method predicate is not consulted and the wallet is not read, so
    this holds with a wallet of any tier or none at all. *)
Theorem continueAction_expense_open_passes (props : Props) (event : PressEvent)
    (iouPaymentType : string) (w : World) :
  shouldShowAddPaymentMenu w = false →
  isExpenseReport (iouReport props) = true →
  lodashGet_achData_state (reimbursementAccount props)
  = JsStr (BANK_ACCOUNT_STATE_OPEN CONST) →
  ∃ w', continueAction props event iouPaymentType w = Returned () w'
        ∧ shouldShowAddPaymentMenu w' = false
        ∧ anchorPosition w' = anchorPosition w
        ∧ transferBalanceButtonRef w' = Some (target (nativeEvent event))
        ∧ trace w'
          = trace w
              ++ [CallIsExpenseReport;
                  CallLogInfo "[KYC Wallet] User has valid payment method and passed KYC checks or did not need them";
                  CallOnSuccessfulKYC iouPaymentType].
Proof.
  intros Hidle Hexp Hopen. run_handlers. rewrite Hidle, Hexp. cbn.
  rewrite Hopen, strict_eq_refl. cbn.
  eexists. split; [reflexivity |]. cbn.
  repeat split; try done. by rewrite <- !app_assoc.
Qed.

(** X3. Outside an expense report, when the payable-method predicate says
    no, the press opens the menu at the pressed element; it neither
    navigates nor continues, and it does not read the wallet, which may be
    missing. *)
Theorem continueAction_no_payment_method (props : Props) (event : PressEvent)
    (iouPaymentType : string) (w : World) :
  shouldShowAddPaymentMenu w = false →
  isExpenseReport (iouReport props) = false →
  hasExpensifyPaymentMethod (default ∅ (fundList props)) (bankAccountList props)
  = false →
  ∃ w', continueAction props event iouPaymentType w = Returned () w'
        ∧ shouldShowAddPaymentMenu w' = true
        ∧ transferBalanceButtonRef w' = Some (target (nativeEvent event))
        ∧ anchorPosition w'
          = getAnchorPosition CONST (popoverPlacement props)
              (layout w (target (nativeEvent event)))
        ∧ trace w'
          = trace w
              ++ [CallIsExpenseReport; CallHasExpensifyPaymentMethod;
                  CallLogInfo "[KYC Wallet] User does not have valid payment method";
                  CallGetClickedTargetLocation (target (nativeEvent event))].
Proof.
  intros Hidle Hexp Hnone.
  destruct (continueAction_blocked CONST isExpenseReport hasExpensifyPaymentMethod
              props event iouPaymentType w
              [CallIsExpenseReport; CallHasExpensifyPaymentMethod])
    as (w' & Hrun & Hmenu & Href & Hanchor & _ & Htrace); [done | by right |].
  exists w'. by rewrite Htrace.
Qed.

(** X4. Reading the tier of a wallet that is not there throws: with the
    menu closed, outside an expense report, with a payable method on file
    and no wallet object, the press throws a TypeError after the two checks,
    before any log entry, navigation or continuation, with the menu still
    closed and the pressed element recorded. *)
Theorem continueAction_missing_wallet_throws (props : Props) (event : PressEvent)
    (iouPaymentType : string) (w : World) :
  shouldShowAddPaymentMenu w = false →
  isExpenseReport (iouReport props) = false →
  hasExpensifyPaymentMethod (default ∅ (fundList props)) (bankAccountList props)
  = true →
  userWallet props = None →
  ∃ w', continueAction props event iouPaymentType w = Thrown "TypeError" w'
        ∧ shouldShowAddPaymentMenu w' = false
        ∧ anchorPosition w' = anchorPosition w
        ∧ transferBalanceButtonRef w' = Some (target (nativeEvent event))
        ∧ trace w'
          = trace w ++ [CallIsExpenseReport; CallHasExpensifyPaymentMethod].
Proof.
  intros Hidle Hexp Hhas Hwallet. run_handlers.
  rewrite Hidle, Hexp. cbn. rewrite Hhas, Hwallet. cbn.
  eexists. split; [reflexivity |]. cbn.
  repeat split; try done. by rewrite <- !app_assoc.
Qed.

(** X5. A press decides for one thing at most. Whatever the props and the
    world, and whether it returns or throws, it navigates at most once and
    then to the enable-payments route, continues at most once and then with
    the payment type it was given, never does both, and does neither when it
    leaves the menu open. *)
Theorem continueAction_one_outcome (props : Props) (event : PressEvent)
    (iouPaymentType : string) (w : World) :
  ∃ calls,
    trace (final (continueAction props event iouPaymentType w)) = trace w ++ calls
    ∧ (length (navigations calls) + length (continuations calls) ≤ 1)%nat
    ∧ (∀ route, route ∈ navigations calls → route = enablePaymentsRoute props)
    ∧ (∀ t, t ∈ continuations calls → t = iouPaymentType)
    ∧ (shouldShowAddPaymentMenu (final (continueAction props event iouPaymentType w))
       = true →
       navigations calls = [] ∧ continuations calls = []).
Proof.
  run_handlers.
  destruct (shouldShowAddPaymentMenu w) eqn:Hshown; cbn.
  { exists []. rewrite app_nil_r. cbn.
    repeat split; try done; try lia; intros x Hx; by decompose_list_elem_of. }
  assert (∀ calls (P : list Call → Prop),
            P calls → ∃ calls', trace w ++ calls = trace w ++ calls' ∧ P calls')
    as Hex by (intros calls P HP; by exists calls).
  destruct (isExpenseReport (iouReport props)); cbn;
    [destruct (strict_eq _ _)
    | destruct (hasExpensifyPaymentMethod _ _);
      [destruct (userWallet props) as [wallet |]; [destruct (truthy _) |] |]];
    cbn; rewrite <- ?app_assoc; cbn;
    apply (Hex _ (λ calls,
             (length (navigations calls) + length (continuations calls) ≤ 1)%nat
             ∧ (∀ route, route ∈ navigations calls → route = enablePaymentsRoute props)
             ∧ (∀ t, t ∈ continuations calls → t = iouPaymentType)
             ∧ (_ = true → navigations calls = [] ∧ continuations calls = [])));
    cbn; repeat split; try done; try lia; try congruence;
    intros x Hx; by decompose_list_elem_of.
Qed.

(** X6. Pressing twice is opening and closing. When a press has opened the
    menu, the next press closes it whatever its event, payment type and
    props are: it calls nothing, and the anchor and the recorded element
    stay those of the first press. *)
Theorem continueAction_press_twice (props props' : Props)
    (event event' : PressEvent) (iouPaymentType iouPaymentType' : string)
    (w w1 : World) :
  continueAction props event iouPaymentType w = Returned () w1 →
  shouldShowAddPaymentMenu w1 = true →
  ∃ w2, continueAction props' event' iouPaymentType' w1 = Returned () w2
        ∧ shouldShowAddPaymentMenu w2 = false
        ∧ trace w2 = trace w1
        ∧ transferBalanceButtonRef w2 = Some (target (nativeEvent event))
        ∧ anchorPosition w2
          = getAnchorPosition CONST (popoverPlacement props)
              (layout w (target (nativeEvent event))).
Proof.
  intros Hfirst Hopen.
  destruct (continueAction_frame CONST isExpenseReport hasExpensifyPaymentMethod
              props event iouPaymentType w w1 Hfirst) as (_ & _ & Hopened).
  destruct (Hopened Hopen) as (_ & Href & Hanchor).
  run_handlers. rewrite Hopen.
  eexists. split; [reflexivity |]. by cbn.
Qed.

End Branches.

(** ** The life of a wall *)

Lemma filter_not_elem_of (x : nat) (l : list nat) :
  x ∉ l → filter (λ s, s ≠ x) l = l.
Proof.
  induction l as [| y l IH]; [done |].
  intros Hx. apply not_elem_of_cons in Hx as [Hne Hx].
  rewrite filter_cons_True by done. by rewrite IH.
Qed.

Lemma filter_own_subscription (x : nat) : filter (λ s, s ≠ x) [x] = [].
Proof. rewrite filter_cons_False by (intros Hne; by apply Hne). done. Qed.

Lemma fresh_subscription (l : list nat) : S (max_list l) ∉ l.
Proof. apply max_list_not_elem_of_gt. lia. Qed.

Section Lifecycle.

Context {Report Fund BankAccount : Type}.
Variable CONST : CONST_t.
Variable isExpenseReport : option Report → bool.
Variable hasExpensifyPaymentMethod :
  gmap string Fund → option (gmap string BankAccount) → bool.

Abbreviation Props := (Props Report Fund BankAccount).

(** X7. Mounting and unmounting leave no listener behind. The effect adds
    one subscription, new among those registered, exactly when
    [shouldListenForResize] is on; its cleanup removes that one, so the
    registered listeners are those from before the mount. The hooks and the
    page are not touched. *)
Theorem useEffect_round_trip (this : JsVal) (props : Props) (w0 : World) :
  ∃ subscription w1 w2,
    useEffect_setup this props w0 = Returned subscription w1
    ∧ useEffect_cleanup props subscription w1 = Returned () w2
    ∧ subscription
      = (if shouldListenForResize props
         then Some (S (max_list (dimensionsListeners w0))) else None)
    ∧ (∀ s, subscription = Some s → s ∉ dimensionsListeners w0)
    ∧ dimensionsListeners w1
      = dimensionsListeners w0 ++ match subscription with Some s => [s] | None => [] end
    ∧ dimensionsListeners w2 = dimensionsListeners w0
    ∧ shouldShowAddPaymentMenu w2 = shouldShowAddPaymentMenu w0
    ∧ anchorPosition w2 = anchorPosition w0
    ∧ transferBalanceButtonRef w2 = transferBalanceButtonRef w0
    ∧ layout w2 = layout w0.
Proof.
  run_handlers. destruct (shouldListenForResize props); cbn.
  - eexists _, _, _. split; [reflexivity |]. split; [reflexivity |]. cbn.
    repeat split; try done.
    + intros s [= <-]. apply fresh_subscription.
    + rewrite filter_app, filter_own_subscription, app_nil_r.
      apply filter_not_elem_of, fresh_subscription.
  - eexists _, _, _. split; [reflexivity |]. split; [reflexivity |]. cbn.
    repeat split; try done. by rewrite app_nil_r.
Qed.

(** X8. The wall reference is one slot shared by all walls. When a second
    wall mounts after the first and the first then unmounts, the reference
    ends up [null] although the second wall is still mounted; the published
    chat report identifier is the second wall's, and of the two
    subscriptions only the first wall's is removed. *)
Theorem useEffect_cleanup_with_other_wall (thisA thisB : JsVal)
    (propsA propsB : Props) (w0 : World) :
  ∃ subscriptionA w1 subscriptionB w2 w3,
    useEffect_setup thisA propsA w0 = Returned subscriptionA w1
    ∧ useEffect_setup thisB propsB w1 = Returned subscriptionB w2
    ∧ useEffect_cleanup propsA subscriptionA w2 = Returned () w3
    ∧ kycWallRef w2 = thisB
    ∧ kycWallRef w3 = JsNull
    ∧ kycWallSourceChatReportID w3 = Some (chatReportID propsB)
    ∧ subscriptionB
      = (if shouldListenForResize propsB
         then Some (S (max_list (dimensionsListeners w1))) else None)
    ∧ dimensionsListeners w3
      = dimensionsListeners w0
          ++ match subscriptionB with Some s => [s] | None => [] end.
Proof.
  run_handlers.
  destruct (shouldListenForResize propsA), (shouldListenForResize propsB); cbn;
    eexists _, _, _, _, _;
    (split; [reflexivity |]); (split; [reflexivity |]); (split; [reflexivity |]);
    cbn; repeat split; try done; try by rewrite app_nil_r.
  - rewrite !filter_app, filter_own_subscription, app_nil_r.
    rewrite filter_not_elem_of by apply fresh_subscription.
    rewrite filter_cons_True; [done |].
    intros Heq. injection Heq as Heq.
    assert (S (max_list (dimensionsListeners w0))
            ≤ max_list (dimensionsListeners w0
                        ++ [S (max_list (dimensionsListeners w0))]))%nat as Hle.
    { apply max_list_elem_of_le, elem_of_app. right.
      by apply list_elem_of_singleton. }
    lia.
  - rewrite filter_app, filter_own_subscription, app_nil_r.
    rewrite filter_not_elem_of by apply fresh_subscription. by rewrite app_nil_r.
Qed.

(** The listeners leave the process-wide state and the trace prefix alone;
    with no element recorded they do nothing at all. *)
Lemma run_listeners_process_state (props : Props) (listeners : list nat) (w : World) :
  ∃ w', foldr (λ _ rest, setMenuPosition CONST props;; rest) (mret ()) listeners w
        = Returned () w'
        ∧ kycWallRef w' = kycWallRef w
        ∧ kycWallSourceChatReportID w' = kycWallSourceChatReportID w
        ∧ (transferBalanceButtonRef w = None → w' = w).
Proof.
  revert w. induction listeners as [| s listeners IH]; intros w.
  - by exists w.
  - cbn [foldr]. unfold mbind at 1, M_bind at 1.
    destruct (transferBalanceButtonRef w) as [el |] eqn:Href.
    + assert (∃ w1, setMenuPosition CONST props w = Returned () w1
                ∧ kycWallRef w1 = kycWallRef w
                ∧ kycWallSourceChatReportID w1 = kycWallSourceChatReportID w)
        as (w1 & -> & Hk1 & Hc1).
      { run_handlers. rewrite Href. eexists. split; [reflexivity |]. by cbn. }
      destruct (IH w1) as (w' & Hrun & Hk & Hc & _).
      exists w'. rewrite Hk, Hc. split; [done |]. split; [done |]. split; [done |].
      intros Hnone. congruence.
    + assert (setMenuPosition CONST props w = Returned () w) as ->.
      { run_handlers. by rewrite Href. }
      destruct (IH w) as (w' & Hrun & Hk & Hc & Hsame).
      exists w'. split; [done |]. split; [done |]. split; [done |].
      intros _. by apply Hsame.
Qed.

(** No handler touches the wall reference, the published identifier or the
    registered listeners. *)
Lemma handle_process_state (props : Props) (a : Action) (w : World) :
  kycWallRef (final (handle CONST isExpenseReport hasExpensifyPaymentMethod props a w))
  = kycWallRef w
  ∧ kycWallSourceChatReportID
      (final (handle CONST isExpenseReport hasExpensifyPaymentMethod props a w))
    = kycWallSourceChatReportID w
  ∧ dimensionsListeners
      (final (handle CONST isExpenseReport hasExpensifyPaymentMethod props a w))
    = dimensionsListeners w.
Proof.
  destruct a as [event iouPaymentType | item | | newLayout]; cbn [handle].
  - run_handlers.
    destruct (shouldShowAddPaymentMenu w); cbn; [done |].
    destruct (isExpenseReport (iouReport props)); cbn;
      [destruct (strict_eq _ _)
      | destruct (hasExpensifyPaymentMethod _ _);
        [destruct (userWallet props) as [wallet |]; [destruct (truthy _) |] |]];
      by cbn.
  - run_handlers. destruct (strict_eq _ _); [| destruct (strict_eq _ _)]; by cbn.
  - run_handlers. by cbn.
  - destruct (Dimensions_change_spec CONST props newLayout w)
      as (w' & Hrun & _ & _ & Hl & _).
    rewrite Hrun. cbn [final]. split; [| split; [| done]].
    + revert Hrun. unfold Dimensions_change, set_layout, gets, modify.
      unfold mbind at 1 2, M_bind at 1 2. cbn [dimensionsListeners].
      match goal with
      | |- context [foldr _ _ ?l ?w1] =>
          destruct (run_listeners_process_state props l w1) as (w2 & -> & Hk & _)
      end.
      intros [= <-]. by rewrite Hk.
    + revert Hrun. unfold Dimensions_change, set_layout, gets, modify.
      unfold mbind at 1 2, M_bind at 1 2. cbn [dimensionsListeners].
      match goal with
      | |- context [foldr _ _ ?l ?w1] =>
          destruct (run_listeners_process_state props l w1) as (w2 & -> & _ & Hc & _)
      end.
      intros [= <-]. by rewrite Hc.
Qed.

(** X9. What stays true while a wall is mounted, with or without the resize
    listener: the wall reference is the [this] of the mount, an identifier
    is published, the wall has one listener registered if it listens and
    none otherwise, and a shown menu always has a recorded element. *)
Theorem reachable_process_state (this : JsVal) (placement : string) (listen : bool)
    (w : World) :
  reachable CONST isExpenseReport hasExpensifyPaymentMethod this placement listen w →
  kycWallRef w = this
  ∧ is_Some (kycWallSourceChatReportID w)
  ∧ dimensionsListeners w = (if listen then [1%nat] else [])
  ∧ (shouldShowAddPaymentMenu w = true → is_Some (transferBalanceButtonRef w)).
Proof.
  induction 1 as [props w0 subscription w (Hmenu & _ & _) Hnil Hplace Hlisten Hsetup
                 | props a w w' Hreach (IHref & IHid & IHlisteners & IHshown)
                     Hplace Hstep].
  - revert Hsetup. run_handlers. rewrite Hnil.
    destruct (shouldListenForResize props); subst listen; cbn;
      intros [= _ <-]; cbn; repeat split; try done; congruence.
  - pose proof (handle_process_state props a w) as (Href & Hid & Hlisteners).
    rewrite Hstep in Href, Hid, Hlisteners. cbn [final] in Href, Hid, Hlisteners.
    rewrite Href, Hid, Hlisteners. repeat split; try done.
    destruct a as [event iouPaymentType | item | | newLayout]; cbn [handle] in Hstep.
    + intros Hshown.
      apply continueAction_frame in Hstep as (_ & _ & Hopen).
      destruct (Hopen Hshown) as (_ & -> & _). done.
    + revert Hstep. run_handlers.
      destruct (strict_eq _ _); [| destruct (strict_eq _ _)]; intros [= <-];
        cbn; discriminate.
    + revert Hstep. run_handlers. intros [= <-]. cbn. discriminate.
    + destruct (Dimensions_change_spec CONST props newLayout w)
        as (w2 & Hrun & Hm & Hr & _).
      rewrite Hrun in Hstep. injection Hstep as <-.
      rewrite Hm, Hr. exact IHshown.
Qed.

(** X10. A change of the window dimensions goes unnoticed by a wall that
    has no listener registered or has not been pressed yet: the menu, its
    anchor and the recorded element stay as they are and the position of no
    element is asked for. *)
Theorem Dimensions_change_unnoticed (props : Props) (newLayout : Element → DOMRect)
    (w : World) :
  dimensionsListeners w = [] ∨ transferBalanceButtonRef w = None →
  ∃ w', Dimensions_change CONST props newLayout w = Returned () w'
        ∧ shouldShowAddPaymentMenu w' = shouldShowAddPaymentMenu w
        ∧ anchorPosition w' = anchorPosition w
        ∧ transferBalanceButtonRef w' = transferBalanceButtonRef w
        ∧ layout w' = newLayout
        ∧ trace w' = trace w.
Proof.
  intros Hquiet.
  unfold Dimensions_change, set_layout, gets, modify.
  unfold mbind at 1 2, M_bind at 1 2. cbn [dimensionsListeners].
  destruct Hquiet as [-> | Hnone].
  - cbn. eexists. split; [reflexivity |]. by cbn.
  - match goal with
    | |- context [foldr _ _ ?l ?w1] =>
        destruct (run_listeners_process_state props l w1) as (w' & -> & _ & _ & Hsame)
    end.
    rewrite Hsame by exact Hnone.
    eexists. split; [reflexivity |]. by cbn.
Qed.

(** X11. On an expense report, reimbursement data that is not there reads
    as the empty state: without a reimbursement account, without its
    [achData] or with an undefined [state], the press is blocked and opens
    the menu, the name of the open state not being empty. *)
Theorem continueAction_expense_missing_account (props : Props) (event : PressEvent)
    (iouPaymentType : string) (w : World) :
  BANK_ACCOUNT_STATE_OPEN CONST ≠ "" →
  shouldShowAddPaymentMenu w = false →
  isExpenseReport (iouReport props) = true →
  reimbursementAccount props = None
  ∨ reimbursementAccount props = Some (mkReimbursementAccount None)
  ∨ reimbursementAccount props
    = Some (mkReimbursementAccount (Some (mkACHData JsUndefined))) →
  ∃ w', continueAction CONST isExpenseReport hasExpensifyPaymentMethod props event
          iouPaymentType w = Returned () w'
        ∧ shouldShowAddPaymentMenu w' = true
        ∧ anchorPosition w'
          = getAnchorPosition CONST (popoverPlacement props)
              (layout w (target (nativeEvent event)))
        ∧ trace w'
          = trace w
              ++ [CallIsExpenseReport;
                  CallLogInfo "[KYC Wallet] User does not have valid payment method";
                  CallGetClickedTargetLocation (target (nativeEvent event))].
Proof.
  intros Hopen Hidle Hexp Hmissing.
  assert (lodashGet_achData_state (reimbursementAccount props) = JsStr "") as Hstate.
  { by destruct Hmissing as [-> | [-> | ->]]. }
  destruct (continueAction_blocked CONST isExpenseReport hasExpensifyPaymentMethod
              props event iouPaymentType w [CallIsExpenseReport])
    as (w' & Hrun & Hmenu & _ & Hanchor & _ & Htrace).
  - done.
  - left. rewrite Hstate. repeat split; try done. congruence.
  - exists w'. by rewrite Htrace.
Qed.

End Lifecycle.

(** X12. Running the effect again, as happens when [chatReportID] changes:
    the cleanup of the old render followed by the effect of the new one
    registers [this] again, publishes the new identifier and leaves the wall
    with the listeners from before the first mount plus one of its own if
    the new render listens; in between, the wall reference is [null]. *)
Theorem useEffect_rerun {Report Fund BankAccount : Type} (this : JsVal)
    (props props' : Props Report Fund BankAccount) (w0 : World) :
  ∃ subscription w1 w2 subscription' w3,
    useEffect_setup this props w0 = Returned subscription w1
    ∧ useEffect_cleanup props subscription w1 = Returned () w2
    ∧ useEffect_setup this props' w2 = Returned subscription' w3
    ∧ kycWallRef w2 = JsNull
    ∧ kycWallSourceChatReportID w2 = Some (chatReportID props)
    ∧ kycWallRef w3 = this
    ∧ kycWallSourceChatReportID w3 = Some (chatReportID props')
    ∧ dimensionsListeners w3
      = dimensionsListeners w0
          ++ (if shouldListenForResize props'
              then [S (max_list (dimensionsListeners w0))] else []).
Proof.
  run_handlers.
  destruct (shouldListenForResize props), (shouldListenForResize props'); cbn;
    eexists _, _, _, _, _;
    (split; [reflexivity |]); (split; [reflexivity |]); (split; [reflexivity |]);
    cbn; repeat split; try done;
    rewrite ?filter_app, ?filter_own_subscription, ?app_nil_r,
      ?(filter_not_elem_of _ _ (fresh_subscription _)); done.
Qed.

(** ** The further properties at sample inputs *)

Lemma continueAction_expense_open_passes_witness :
  ∃ w', continueAction Sample.CONST Sample.isExpenseReport Sample.hasPM
          Scenario.openExpenseProps Sample.press "expense" Sample.world0
        = Returned () w'
        ∧ shouldShowAddPaymentMenu w' = false
        ∧ anchorPosition w' = mkAnchor 0 0
        ∧ transferBalanceButtonRef w' = Some 7%nat
        ∧ trace w'
          = [CallIsExpenseReport;
             CallLogInfo "[KYC Wallet] User has valid payment method and passed KYC checks or did not need them";
             CallOnSuccessfulKYC "expense"].
Proof.
  apply (continueAction_expense_open_passes Sample.CONST Sample.isExpenseReport
           Sample.hasPM Scenario.openExpenseProps Sample.press "expense"
           Sample.world0).
  - reflexivity.
  - reflexivity.
  - reflexivity.
Defined.

Lemma continueAction_no_payment_method_witness :
  userWallet (Sample.props true "bottom" None None None None) = None
  ∧ ∃ w', continueAction Sample.CONST Sample.isExpenseReport Sample.hasPM
            (Sample.props true "bottom" None None None None) Sample.press
            "elsewhere" Sample.world0 = Returned () w'
          ∧ shouldShowAddPaymentMenu w' = true
          ∧ transferBalanceButtonRef w' = Some 7%nat
          ∧ anchorPosition w' = mkAnchor 118 70
          ∧ trace w'
            = [CallIsExpenseReport; CallHasExpensifyPaymentMethod;
               CallLogInfo "[KYC Wallet] User does not have valid payment method";
               CallGetClickedTargetLocation 7%nat].
Proof.
  split; [reflexivity |].
  apply (continueAction_no_payment_method Sample.CONST Sample.isExpenseReport
           Sample.hasPM (Sample.props true "bottom" None None None None)
           Sample.press "elsewhere" Sample.world0).
  - reflexivity.
  - reflexivity.
  - vm_compute. reflexivity.
Defined.

Lemma continueAction_missing_wallet_throws_witness :
  userWallet Scenario.noWalletProps = None
  ∧ ∃ w', continueAction Sample.CONST Sample.isExpenseReport Sample.hasPM
            Scenario.noWalletProps Sample.press "elsewhere" Sample.world0
          = Thrown "TypeError" w'
          ∧ shouldShowAddPaymentMenu w' = false
          ∧ anchorPosition w' = mkAnchor 0 0
          ∧ transferBalanceButtonRef w' = Some 7%nat
          ∧ trace w' = [CallIsExpenseReport; CallHasExpensifyPaymentMethod].
Proof.
  split; [reflexivity |].
  apply (continueAction_missing_wallet_throws Sample.CONST Sample.isExpenseReport
           Sample.hasPM Scenario.noWalletProps Sample.press "elsewhere"
           Sample.world0).
  - reflexivity.
  - reflexivity.
  - vm_compute. reflexivity.
  - reflexivity.
Defined.

Lemma continueAction_one_outcome_witness :
  ∃ calls,
    trace (final (continueAction Sample.CONST Sample.isExpenseReport Sample.hasPM
                    (Sample.cardProps (JsStr "SILVER")) Sample.press "elsewhere"
                    Sample.world0))
    = calls
    ∧ (length (navigations calls) + length (continuations calls) ≤ 1)%nat
    ∧ (∀ route, route ∈ navigations calls → route = "enable-payments")
    ∧ (∀ t, t ∈ continuations calls → t = "elsewhere").
Proof.
  destruct (continueAction_one_outcome Sample.CONST Sample.isExpenseReport
              Sample.hasPM (Sample.cardProps (JsStr "SILVER")) Sample.press
              "elsewhere" Sample.world0)
    as (calls & Htrace & Hone & Hroute & Htype & _).
  exists calls. split; [exact Htrace |]. split; [exact Hone |].
  split; [exact Hroute | exact Htype].
Defined.

Lemma continueAction_press_twice_witness :
  shouldShowAddPaymentMenu (Sample.opened true) = true
  ∧ ∃ w2, continueAction Sample.CONST Sample.isExpenseReport Sample.hasPM
            (Sample.cardProps (JsStr "GOLD")) Scenario.otherPress "again"
            (Sample.opened true) = Returned () w2
          ∧ shouldShowAddPaymentMenu w2 = false
          ∧ trace w2 = trace (Sample.opened true)
          ∧ transferBalanceButtonRef w2 = Some 7%nat
          ∧ anchorPosition w2 = mkAnchor 118 70.
Proof.
  split; [reflexivity |].
  apply (continueAction_press_twice Sample.CONST Sample.isExpenseReport Sample.hasPM
           (Sample.props true "bottom" None None None None)
           (Sample.cardProps (JsStr "GOLD")) Sample.press Scenario.otherPress
           "elsewhere" "again" (Sample.mounted true) (Sample.opened true)).
  - vm_compute. reflexivity.
  - reflexivity.
Defined.

Lemma useEffect_round_trip_witness :
  ∃ w1 w2,
    useEffect_setup Sample.this Scenario.otherWallProps (Sample.mounted true)
    = Returned (Some 2%nat) w1
    ∧ useEffect_cleanup Scenario.otherWallProps (Some 2%nat) w1 = Returned () w2
    ∧ dimensionsListeners w1 = [1%nat; 2%nat]
    ∧ dimensionsListeners w2 = [1%nat].
Proof.
  destruct (useEffect_round_trip Sample.this Scenario.otherWallProps
              (Sample.mounted true))
    as (subscription & w1 & w2 & Hsetup & Hcleanup & -> & _ & Hadded & Hremoved & _).
  exists w1, w2. split; [exact Hsetup |]. split; [exact Hcleanup |].
  split; [exact Hadded | exact Hremoved].
Defined.

Lemma reachable_process_state_witness :
  kycWallRef (Sample.opened true) = JsUndefined
  ∧ is_Some (kycWallSourceChatReportID (Sample.opened true))
  ∧ dimensionsListeners (Sample.opened true) = [1%nat]
  ∧ is_Some (transferBalanceButtonRef (Sample.opened true)).
Proof.
  destruct (reachable_process_state Sample.CONST Sample.isExpenseReport Sample.hasPM
              Sample.this "bottom" true (Sample.opened true) opened_reachable)
    as (Href & Hid & Hlisteners & Hshown).
  split; [exact Href |]. split; [exact Hid |]. split; [exact Hlisteners |].
  apply Hshown. reflexivity.
Defined.

Lemma Dimensions_change_unnoticed_witness :
  ∃ w', Dimensions_change Sample.CONST (Sample.cardProps JsUndefined)
          Sample.pageAfterResize (Sample.opened false) = Returned () w'
        ∧ shouldShowAddPaymentMenu w' = true
        ∧ anchorPosition w' = mkAnchor 118 70
        ∧ transferBalanceButtonRef w' = Some 7%nat
        ∧ layout w' = Sample.pageAfterResize
        ∧ trace w' = trace (Sample.opened false).
Proof.
  apply (Dimensions_change_unnoticed Sample.CONST (Sample.cardProps JsUndefined)
           Sample.pageAfterResize (Sample.opened false)).
  left. reflexivity.
Defined.

Lemma continueAction_expense_missing_account_witness :
  ∃ w', continueAction Sample.CONST Sample.isExpenseReport Sample.hasPM
          Scenario.bareExpenseProps Sample.press "expense" Sample.world0
        = Returned () w'
        ∧ shouldShowAddPaymentMenu w' = true
        ∧ anchorPosition w' = mkAnchor 118 70
        ∧ trace w'
          = [CallIsExpenseReport;
             CallLogInfo "[KYC Wallet] User does not have valid payment method";
             CallGetClickedTargetLocation 7%nat].
Proof.
  apply (continueAction_expense_missing_account Sample.CONST Sample.isExpenseReport
           Sample.hasPM Scenario.bareExpenseProps Sample.press "expense"
           Sample.world0).
  - vm_compute. discriminate.
  - reflexivity.
  - reflexivity.
  - right. left. reflexivity.
Defined.
